(** * The session lifecycle state machine of the generated
      [NewgroundsIO.objects.Session] class

    Source: generators/javascript/partials/objects/Session.js (the variant
    with host-native private fields, [this.#status]) and its twin that
    keeps the private fields as [this._status].  Both variants have the
    same statements in the same order; the names below follow the first. *)

From Stdlib Require Import ZArith List Bool Lia String.
From stdpp Require Import base option list strings gmap pretty.

Set Warnings "-register-all".

Local Open Scope string_scope.
Local Open Scope list_scope.
Local Open Scope Z_scope.

(* ------------------------------------------------------------------ *)
(** ** JavaScript values *)

(** The dynamic values the session object stores and the JSON payloads the
    service core hands to the completion handlers.  Numbers are the
    integers (the only number the source inspects is the error code 111);
    an object is its list of fields, read by first match. *)
Inductive JsVal : Type :=
| JUndefined
| JNull
| JBool (b : bool)
| JNum (n : Z)
| JStr (s : string)
| JArr (elems : list JsVal)
| JObj (fields : list (string * JsVal)).

(** Truthiness, as [if (v)], [!v] and [a && b] use it. *)
Definition js_truthy (v : JsVal) : bool :=
  match v with
  | JUndefined | JNull => false
  | JBool b => b
  | JNum n => negb (n =? 0)
  | JStr s => negb (String.eqb s "")
  | JArr _ | JObj _ => true
  end.

(** [ToString]: what [localStorage.setItem] stores and what an array is
    compared as. *)
Fixpoint js_toString (v : JsVal) : string :=
  match v with
  | JUndefined => "undefined"
  | JNull => "null"
  | JBool true => "true"
  | JBool false => "false"
  | JNum n => pretty n
  | JStr s => s
  | JArr l =>
      let elem x := match x with
                    | JUndefined | JNull => ""
                    | _ => js_toString x
                    end in
      (fix join (l : list JsVal) : string :=
         match l with
         | [] => ""
         | [x] => elem x
         | x :: rest => elem x +:+ "," +:+ join rest
         end) l
  | JObj _ => "[object Object]"
  end.

(** [v == lit] for the two string literals the source compares with
    loosely, ["wait"] and ["App.startSession"].  Neither literal is
    numeric, so against a number or a boolean the comparison is on NaN and
    false; an array or object is compared through its string form. *)
Definition js_loose_eq_lit (v : JsVal) (lit : string) : bool :=
  match v with
  | JStr s => String.eqb s lit
  | JArr _ | JObj _ => String.eqb (js_toString v) lit
  | JUndefined | JNull | JBool _ | JNum _ => false
  end.

(** [v === lit] for a string literal. *)
Definition js_strict_eq_str (v : JsVal) (lit : string) : bool :=
  match v with
  | JStr s => String.eqb s lit
  | _ => false
  end.

(** [v === true]. *)
Definition js_is_true (v : JsVal) : bool :=
  match v with JBool true => true | _ => false end.

(** [v === 111] and the like. *)
Definition js_strict_eq_num (v : JsVal) (n : Z) : bool :=
  match v with JNum m => m =? n | _ => false end.

(** [v !== null]. *)
Definition js_not_null (v : JsVal) : bool :=
  match v with JNull => false | _ => true end.

Fixpoint assoc (k : string) (fs : list (string * JsVal)) : JsVal :=
  match fs with
  | [] => JUndefined
  | (k', v) :: rest => if String.eqb k k' then v else assoc k rest
  end.

(** [v.k] for the field names the source reads ([success], [result],
    [session], [id], [passport_url], [error], [code], [expired], [user],
    [remember], [__object]).  [None] is the TypeError of reading a property
    of [null] or [undefined]; strings, numbers, booleans and arrays carry
    none of these fields. *)
Definition js_prop (v : JsVal) (k : string) : option JsVal :=
  match v with
  | JUndefined | JNull => None
  | JObj fs => Some (assoc k fs)
  | JBool _ | JNum _ | JStr _ | JArr _ => Some JUndefined
  end.

(* ------------------------------------------------------------------ *)
(** ** The session object *)

(** Modelled from the spec: the table [NewgroundsIO.SessionState] is
    declared outside the partial; the source names these ten codes and the
    spec lists them as the ten distinct states. *)
Inductive SessionState : Type :=
| SESSION_UNINITIALIZED
| WAITING_FOR_SERVER
| WAITING_FOR_USER
| LOGIN_REQUIRED
| LOGIN_SUCCESSFUL
| LOGIN_CANCELLED
| LOGIN_FAILED
| USER_LOGGED_OUT
| SERVER_UNAVAILABLE
| EXCEEDED_MAX_ATTEMPTS.

#[global] Instance SessionState_eq_dec : EqDecision SessionState.
Proof. solve_decision. Defined.

(** The attached [NewgroundsIO.Core], as far as the session reads it. *)
Record Core : Type := { appID : string }.

(** The fields of the object.  The private ones come first ([#status] ...
    [#saved_id], [#ngioCore]); [mode], [id], [user], [remember], [expired]
    and [passport_url] are public properties.  [_mode] is the private field
    declared with the initial value ["expired"]; [mode] is the public
    property that [update] reads and the handlers write. *)
Record Session : Type := mkSession {
  status : SessionState;
  lastStatus : option SessionState;
  statusChanged : bool;
  lastUpdate : Z;
  canUpdate : bool;
  _mode : JsVal;
  totalAttempts : Z;
  maxAttempts : Z;
  uri_id : JsVal;
  saved_id : JsVal;
  ngioCore : option Core;
  mode : JsVal;
  id : JsVal;
  user : JsVal;
  remember : JsVal;
  expired : JsVal;
  passport_url : JsVal
}.

Definition set_status v (s : Session) : Session :=
  mkSession v (lastStatus s) (statusChanged s) (lastUpdate s) (canUpdate s)
    (_mode s) (totalAttempts s) (maxAttempts s) (uri_id s) (saved_id s)
    (ngioCore s) (mode s) (id s) (user s) (remember s) (expired s)
    (passport_url s).
Definition set_lastStatus v (s : Session) : Session :=
  mkSession (status s) v (statusChanged s) (lastUpdate s) (canUpdate s)
    (_mode s) (totalAttempts s) (maxAttempts s) (uri_id s) (saved_id s)
    (ngioCore s) (mode s) (id s) (user s) (remember s) (expired s)
    (passport_url s).
Definition set_statusChanged v (s : Session) : Session :=
  mkSession (status s) (lastStatus s) v (lastUpdate s) (canUpdate s)
    (_mode s) (totalAttempts s) (maxAttempts s) (uri_id s) (saved_id s)
    (ngioCore s) (mode s) (id s) (user s) (remember s) (expired s)
    (passport_url s).
Definition set_lastUpdate v (s : Session) : Session :=
  mkSession (status s) (lastStatus s) (statusChanged s) v (canUpdate s)
    (_mode s) (totalAttempts s) (maxAttempts s) (uri_id s) (saved_id s)
    (ngioCore s) (mode s) (id s) (user s) (remember s) (expired s)
    (passport_url s).
Definition set_canUpdate v (s : Session) : Session :=
  mkSession (status s) (lastStatus s) (statusChanged s) (lastUpdate s) v
    (_mode s) (totalAttempts s) (maxAttempts s) (uri_id s) (saved_id s)
    (ngioCore s) (mode s) (id s) (user s) (remember s) (expired s)
    (passport_url s).
Definition set__mode v (s : Session) : Session :=
  mkSession (status s) (lastStatus s) (statusChanged s) (lastUpdate s)
    (canUpdate s) v (totalAttempts s) (maxAttempts s) (uri_id s) (saved_id s)
    (ngioCore s) (mode s) (id s) (user s) (remember s) (expired s)
    (passport_url s).
Definition set_totalAttempts v (s : Session) : Session :=
  mkSession (status s) (lastStatus s) (statusChanged s) (lastUpdate s)
    (canUpdate s) (_mode s) v (maxAttempts s) (uri_id s) (saved_id s)
    (ngioCore s) (mode s) (id s) (user s) (remember s) (expired s)
    (passport_url s).
Definition set_uri_id v (s : Session) : Session :=
  mkSession (status s) (lastStatus s) (statusChanged s) (lastUpdate s)
    (canUpdate s) (_mode s) (totalAttempts s) (maxAttempts s) v (saved_id s)
    (ngioCore s) (mode s) (id s) (user s) (remember s) (expired s)
    (passport_url s).
Definition set_saved_id v (s : Session) : Session :=
  mkSession (status s) (lastStatus s) (statusChanged s) (lastUpdate s)
    (canUpdate s) (_mode s) (totalAttempts s) (maxAttempts s) (uri_id s) v
    (ngioCore s) (mode s) (id s) (user s) (remember s) (expired s)
    (passport_url s).
Definition set_mode v (s : Session) : Session :=
  mkSession (status s) (lastStatus s) (statusChanged s) (lastUpdate s)
    (canUpdate s) (_mode s) (totalAttempts s) (maxAttempts s) (uri_id s)
    (saved_id s) (ngioCore s) v (id s) (user s) (remember s) (expired s)
    (passport_url s).
Definition set_id v (s : Session) : Session :=
  mkSession (status s) (lastStatus s) (statusChanged s) (lastUpdate s)
    (canUpdate s) (_mode s) (totalAttempts s) (maxAttempts s) (uri_id s)
    (saved_id s) (ngioCore s) (mode s) v (user s) (remember s) (expired s)
    (passport_url s).
Definition set_user v (s : Session) : Session :=
  mkSession (status s) (lastStatus s) (statusChanged s) (lastUpdate s)
    (canUpdate s) (_mode s) (totalAttempts s) (maxAttempts s) (uri_id s)
    (saved_id s) (ngioCore s) (mode s) (id s) v (remember s) (expired s)
    (passport_url s).
Definition set_remember v (s : Session) : Session :=
  mkSession (status s) (lastStatus s) (statusChanged s) (lastUpdate s)
    (canUpdate s) (_mode s) (totalAttempts s) (maxAttempts s) (uri_id s)
    (saved_id s) (ngioCore s) (mode s) (id s) (user s) v (expired s)
    (passport_url s).
Definition set_expired v (s : Session) : Session :=
  mkSession (status s) (lastStatus s) (statusChanged s) (lastUpdate s)
    (canUpdate s) (_mode s) (totalAttempts s) (maxAttempts s) (uri_id s)
    (saved_id s) (ngioCore s) (mode s) (id s) (user s) (remember s) v
    (passport_url s).
Definition set_passport_url v (s : Session) : Session :=
  mkSession (status s) (lastStatus s) (statusChanged s) (lastUpdate s)
    (canUpdate s) (_mode s) (totalAttempts s) (maxAttempts s) (uri_id s)
    (saved_id s) (ngioCore s) (mode s) (id s) (user s) (remember s)
    (expired s) v.

(* ------------------------------------------------------------------ *)
(** ** The world around the object *)

(** The completion handler armed for a remote call: the method
    [_onStartSession] (handed over as [this.#onStartSession]), the method
    [_onCheckSession], or the anonymous function of [endSession], which
    remembers whether a [callback] function was supplied. *)
Inductive Handler : Type :=
| HOnStartSession
| HOnCheckSession
| HOnEndThenStart (callback : bool).

(** A remote call the service core has sent and not yet answered: the
    components of the request and the handler to run on the response. *)
Record Pending : Type := mkPending {
  components : list string;
  handler : Handler
}.

(** What the object does to its surroundings besides remote calls. *)
Inductive Event : Type :=
| EvOnChange (st : SessionState)   (* update's callback(this) *)
| EvOnComplete                     (* endSession's callback(this) *)
| EvConsoleWarn
| EvConsoleError
| EvWindowOpen (url : JsVal).

(** The session, [localStorage], the service core's queue of components,
    the remote calls in flight (oldest first) and the events so far
    (oldest first). *)
Record World : Type := mkWorld {
  sess : Session;
  localStorage : gmap string string;
  queued : list string;
  pending : list Pending;
  events : list Event
}.

Definition with_sess (f : Session -> Session) (w : World) : World :=
  mkWorld (f (sess w)) (localStorage w) (queued w) (pending w) (events w).
Definition with_localStorage (f : gmap string string -> gmap string string)
    (w : World) : World :=
  mkWorld (sess w) (f (localStorage w)) (queued w) (pending w) (events w).
Definition with_queued (f : list string -> list string) (w : World) : World :=
  mkWorld (sess w) (localStorage w) (f (queued w)) (pending w) (events w).
Definition with_pending (f : list Pending -> list Pending) (w : World)
    : World :=
  mkWorld (sess w) (localStorage w) (queued w) (f (pending w)) (events w).
Definition with_events (f : list Event -> list Event) (w : World) : World :=
  mkWorld (sess w) (localStorage w) (queued w) (pending w) (f (events w)).

(** A method either returns or throws; either way the writes made so far
    stay. *)
Inductive Outcome (A : Type) : Type :=
| Ok (a : A) (w : World)
| TypeError (w : World).
Arguments Ok {A} a w.
Arguments TypeError {A} w.

Definition final {A} (o : Outcome A) : World :=
  match o with Ok _ w => w | TypeError w => w end.

Definition returns {A} (o : Outcome A) : bool :=
  match o with Ok _ _ => true | TypeError _ => false end.

Definition M (A : Type) : Type := World -> Outcome A.

Definition ret {A} (a : A) : M A := fun w => Ok a w.
Definition bind {A B} (m : M A) (k : A -> M B) : M B :=
  fun w => match m w with
           | Ok a w' => k a w'
           | TypeError w' => TypeError w'
           end.
Definition throw {A} : M A := fun w => TypeError w.

Declare Scope js_scope.
Delimit Scope js_scope with js.
Notation "x <- m ;; k" := (bind m (fun x => k))
  (at level 20, m at level 99, k at level 200, only parsing) : js_scope.
Notation "m ;; k" := (bind m (fun _ => k))
  (at level 100, k at level 200, only parsing, right associativity)
  : js_scope.
Local Open Scope js_scope.

Definition this : M Session := fun w => Ok (sess w) w.
Definition assign (f : Session -> Session) : M unit :=
  fun w => Ok tt (with_sess f w).
Definition emit (e : Event) : M unit :=
  fun w => Ok tt (with_events (fun es => es ++ [e]) w).
Definition when (b : bool) (m : M unit) : M unit :=
  if b then m else ret tt.

(** [v.k], throwing on [null] and [undefined]. *)
Definition get (v : JsVal) (k : string) : M JsVal :=
  match js_prop v k with
  | Some x => ret x
  | None => throw
  end.

(** [localStorage.getItem(key)] and [localStorage.setItem(key, value)];
    both arguments of [setItem] are converted to strings. *)
Definition getItem (key : JsVal) : M JsVal :=
  fun w => Ok (match localStorage w !! js_toString key with
               | Some v => JStr v
               | None => JNull
               end) w.
Definition setItem (key value : JsVal) : M unit :=
  fun w => Ok tt
    (with_localStorage (fun m => <[js_toString key := js_toString value]> m) w).

(** [this.#ngioCore.m(...)]: a TypeError when no core is attached. *)
Definition the_core : M Core :=
  s <- this ;;
  match ngioCore s with
  | Some c => ret c
  | None => throw
  end.

(** The service core's contract: [getComponent] resolves a name,
    [executeComponent] sends one component and arms the handler,
    [queueComponent] appends to the queue, [executeQueue] sends the queue
    as one request with one handler. *)
Definition getComponent (name : string) : M string :=
  _ <- the_core ;; ret name.
Definition executeComponent (component : string) (h : Handler) : M unit :=
  _ <- the_core ;;
  fun w => Ok tt (with_pending (fun p => p ++ [mkPending [component] h]) w).
Definition queueComponent (component : string) : M unit :=
  _ <- the_core ;;
  fun w => Ok tt (with_queued (fun q => q ++ [component]) w).
Definition executeQueue (h : Handler) : M unit :=
  _ <- the_core ;;
  fun w => Ok tt
    (with_queued (fun _ => [])
       (with_pending (fun p => p ++ [mkPending (queued w) h]) w)).

(* ------------------------------------------------------------------ *)
(** ** The methods of the class *)

(** [get storageKey()]. *)
Definition storageKey : M JsVal :=
  s <- this ;;
  ret (match ngioCore s with
       | Some c => JStr ("_ngio_" +:+ appID c +:+ "_session_")
       | None => JNull
       end).

Definition resetSession : M unit :=
  assign (set_uri_id JNull) ;;
  assign (set_saved_id JNull) ;;
  assign (set_remember (JBool false)) ;;
  assign (set_user JNull) ;;
  assign (set_expired (JBool false)) ;;
  key <- storageKey ;;
  setItem key JNull.

Definition openLoginPage : M unit :=
  s <- this ;;
  if negb (js_truthy (passport_url s)) then emit EvConsoleWarn
  else
    assign (set_status WAITING_FOR_USER) ;;
    assign (set_mode (JStr "check")) ;;
    emit (EvWindowOpen (passport_url s)).

(** [endSession(callback, thisArg)]; [callback] tells whether
    [typeof(callback) === "function"]. *)
Definition endSession (callback : bool) : M unit :=
  assign (set_canUpdate false) ;;
  endSession_c <- getComponent "App.endSession" ;;
  startSession_c <- getComponent "App.startSession" ;;
  queueComponent endSession_c ;;
  queueComponent startSession_c ;;
  executeQueue (HOnEndThenStart callback).

Definition logOut (callback : bool) : M unit :=
  assign (set_mode (JStr "wait")) ;;
  endSession callback.

(** [cancelLogin(newStatus)], [None] for an omitted argument; [now] is the
    reading of [new Date()]. *)
Definition cancelLogin (now : Z) (newStatus : option SessionState) : M unit :=
  endSession false ;;
  let newStatus := match newStatus with
                   | Some st => st
                   | None => LOGIN_CANCELLED
                   end in
  resetSession ;;
  assign (set_id JNull) ;;
  assign (set_status newStatus) ;;
  assign (set_totalAttempts 0) ;;
  assign (set__mode (JStr "new")) ;;
  assign (set_lastUpdate (now - 30000)).

Definition startSession : M unit :=
  assign (set_canUpdate false) ;;
  resetSession ;;
  assign (set_status WAITING_FOR_SERVER) ;;
  startSession_c <- getComponent "App.startSession" ;;
  executeComponent startSession_c HOnStartSession.

(** The test of the array scan:
    [result[i] && result[i].__object && result[i].__object == "App.startSession"]. *)
Definition is_tagged (v : JsVal) : bool :=
  js_truthy v &&
  match js_prop v "__object" with
  | Some o => js_truthy o && js_loose_eq_lit o "App.startSession"
  | None => false
  end.

(** The loop over the array: the first tagged element replaces [result],
    and [result] stays as it is when there is none. *)
Fixpoint scan (elems : list JsVal) (result : JsVal) : JsVal :=
  match elems with
  | [] => result
  | x :: rest => if is_tagged x then x else scan rest result
  end.

Definition select_result (result : JsVal) : JsVal :=
  match result with
  | JArr elems => scan elems result
  | _ => result
  end.

Definition _onStartSession (response : JsVal) : M unit :=
  success <- get response "success" ;;
  (if js_is_true success then
     result <- get response "result" ;;
     let result := select_result result in
     session <- get result "session" ;;
     v <- get session "id" ;;
     assign (set_id v) ;;
     v <- get session "passport_url" ;;
     assign (set_passport_url v) ;;
     assign (set_status LOGIN_REQUIRED) ;;
     assign (set_mode (JStr "wait"))
   else
     assign (set_status SERVER_UNAVAILABLE)) ;;
  assign (set_canUpdate true).

Definition checkSession : M unit :=
  assign (set_canUpdate false) ;;
  checkSession_c <- getComponent "App.checkSession" ;;
  executeComponent checkSession_c HOnCheckSession.

Definition _onCheckSession (now : Z) (response : JsVal) : M unit :=
  success <- get response "success" ;;
  (if js_is_true success then
     result <- get response "result" ;;
     result_success <- get result "success" ;;
     if negb (js_truthy result_success) then
       assign (set_id JNull) ;;
       error <- get result "error" ;;
       code <- get error "code" ;;
       cancelLogin now
         (Some (if js_strict_eq_num code 111 then LOGIN_CANCELLED
                else LOGIN_FAILED))
     else
       session <- get result "session" ;;
       session_expired <- get session "expired" ;;
       if js_truthy session_expired then
         resetSession ;;
         assign (set_id JNull) ;;
         assign (set_status SESSION_UNINITIALIZED)
       else
         session_user <- get session "user" ;;
         if js_not_null session_user then
           assign (set_user session_user) ;;
           assign (set_status LOGIN_SUCCESSFUL) ;;
           assign (set_mode (JStr "valid")) ;;
           session_remember <- get session "remember" ;;
           when (js_truthy session_remember)
             (s <- this ;;
              assign (set_saved_id (id s)) ;;
              assign (set_remember (JBool true)) ;;
              key <- storageKey ;;
              setItem key (id s))
         else
           assign (set_mode (JStr "check"))
   else
     assign (set_status SERVER_UNAVAILABLE)) ;;
  assign (set_canUpdate true).

Definition _onEndSession (response : JsVal) : M unit :=
  resetSession ;;
  assign (set_id JNull) ;;
  assign (set_user JNull) ;;
  assign (set_passport_url JNull) ;;
  assign (set_mode (JStr "new")) ;;
  assign (set_status USER_LOGGED_OUT) ;;
  assign (set_canUpdate true).

(** [update(callback, thisArg)]; [now] is the reading of [new Date()],
    [callback] tells whether a function was supplied.  The callback is
    recorded as an event. *)
Definition update (now : Z) (callback : bool) : M unit :=
  assign (set_statusChanged false) ;;
  s <- this ;;
  when (bool_decide (lastStatus s <> Some (status s)))
    (assign (set_statusChanged true) ;;
     assign (set_lastStatus (Some (status s))) ;;
     when callback (emit (EvOnChange (status s)))) ;;
  s <- this ;;
  if negb (canUpdate s) || js_loose_eq_lit (mode s) "wait" then ret tt
  else
    match ngioCore s with
    | None =>
        emit EvConsoleError ;;
        assign (set_canUpdate false)
    | Some _ =>
        when (bool_decide (status s = SERVER_UNAVAILABLE))
          (if maxAttempts s <=? totalAttempts s then
             assign (set_status EXCEEDED_MAX_ATTEMPTS)
           else
             assign (set_status SESSION_UNINITIALIZED) ;;
             assign (fun s => set_totalAttempts (totalAttempts s + 1) s)) ;;
        s <- this ;;
        when (bool_decide (status s = SESSION_UNINITIALIZED))
          (key <- storageKey ;;
           item <- getItem key ;;
           assign (set_saved_id item) ;;
           s <- this ;;
           (if js_truthy (uri_id s) then assign (set_id (uri_id s))
            else if js_truthy (saved_id s) then assign (set_id (saved_id s))
            else ret tt) ;;
           s <- this ;;
           assign (set_mode
                     (JStr (if js_truthy (id s)
                               && negb (js_strict_eq_str (id s) "null")
                            then "check" else "new")))) ;;
        s <- this ;;
        let wait := now - lastUpdate s in
        if wait <? 5000 then ret tt
        else
          assign (set_lastUpdate now) ;;
          s <- this ;;
          if js_strict_eq_str (mode s) "new" then
            assign (set_mode (JStr "wait")) ;;
            startSession
          else if js_strict_eq_str (mode s) "check" then
            assign (set_mode (JStr "wait")) ;;
            checkSession
          else ret tt
    end.

(* ------------------------------------------------------------------ *)
(** ** Completion of remote calls, and runs *)

(** What the service core runs when the response of a call arrives. *)
Definition run_handler (h : Handler) (now : Z) (response : JsVal) : M unit :=
  match h with
  | HOnStartSession => _onStartSession response
  | HOnCheckSession => _onCheckSession now response
  | HOnEndThenStart callback =>
      _onEndSession response ;;
      _onStartSession response ;;
      when callback (emit EvOnComplete)
  end.

(** The [i]-th call in flight is answered with [response]: it leaves the
    list and its handler runs.  Nothing happens when there is no such
    call. *)
Definition complete (i : nat) (now : Z) (response : JsVal) : M unit :=
  fun w =>
    match pending w !! i with
    | Some p =>
        run_handler (handler p) now response (with_pending (delete i) w)
    | None => Ok tt w
    end.

(** What the driver, the user and the service core can do to a session. *)
Inductive Op : Type :=
| OpUpdate (now : Z) (callback : bool)
| OpStartSession
| OpCheckSession
| OpEndSession (callback : bool)
| OpLogOut (callback : bool)
| OpCancelLogin (now : Z) (newStatus : option SessionState)
| OpOpenLoginPage
| OpResetSession
| OpComplete (i : nat) (now : Z) (response : JsVal).

Definition exec (op : Op) : M unit :=
  match op with
  | OpUpdate now callback => update now callback
  | OpStartSession => startSession
  | OpCheckSession => checkSession
  | OpEndSession callback => endSession callback
  | OpLogOut callback => logOut callback
  | OpCancelLogin now newStatus => cancelLogin now newStatus
  | OpOpenLoginPage => openLoginPage
  | OpResetSession => resetSession
  | OpComplete i now response => complete i now response
  end.

(** One operation, whether it returns or throws, and a sequence of them. *)
Definition step (w : World) (op : Op) : World := final (exec op w).
Definition run (ops : list Op) (w : World) : World := fold_left step ops w.

(** The private fields as their declarations initialise them, for an object
    constructed at time [created] with [core] attached.

    Modelled from the spec: the constructor of the generated class, which
    initialises the public properties, is outside the partial; the spec's
    data model has [sessionId], [user] and [passportUrl] start as null and
    [remember] as a boolean.  The partial never initialises [this.mode], so
    it starts undefined. *)
Definition newSession (created : Z) (core : option Core) : Session :=
  {| status := SESSION_UNINITIALIZED;
     lastStatus := None;
     statusChanged := false;
     lastUpdate := created - 30000;
     canUpdate := true;
     _mode := JStr "expired";
     totalAttempts := 0;
     maxAttempts := 5;
     uri_id := JNull;
     saved_id := JNull;
     ngioCore := core;
     mode := JUndefined;
     id := JNull;
     user := JNull;
     remember := JBool false;
     expired := JBool false;
     passport_url := JNull |}.

Definition newWorld (created : Z) (core : option Core)
    (storage : gmap string string) : World :=
  mkWorld (newSession created core) storage [] [] [].

(* ------------------------------------------------------------------ *)
(** ** Vocabulary of the properties *)

(** How often [update]'s callback has run. *)
Fixpoint count_onChange (es : list Event) : nat :=
  match es with
  | [] => O
  | EvOnChange _ :: rest => S (count_onChange rest)
  | _ :: rest => count_onChange rest
  end.

Definition is_update (op : Op) : bool :=
  match op with OpUpdate _ _ => true | _ => false end.

Definition is_complete (op : Op) : bool :=
  match op with OpComplete _ _ _ => true | _ => false end.

(** The operations of a session that only its driver touches: [update]
    ticks and the answers of the service core. *)
Definition driver_op (op : Op) : bool := is_update op || is_complete op.

(** The operations that send a remote call of their own accord. *)
Definition sends_call (op : Op) : bool :=
  match op with
  | OpStartSession | OpCheckSession | OpEndSession _ | OpLogOut _
  | OpCancelLogin _ _ => true
  | _ => false
  end.

(** A check-session response that is a call-level success and reports a
    failed check with an error record: the one shape on which
    [_onCheckSession] reaches its call of [cancelLogin]. *)
Definition reports_failed_check (response : JsVal) : bool :=
  match js_prop response "success" with
  | Some success =>
      js_is_true success &&
      match js_prop response "result" with
      | Some result =>
          match js_prop result "success", js_prop result "error" with
          | Some result_success, Some error =>
              negb (js_truthy result_success) &&
              match js_prop error "code" with
              | Some _ => true
              | None => false
              end
          | _, _ => false
          end
      | None => false
      end
  | None => false
  end.

(** A check-session response that is a call-level success and reports a
    live session with a user attached and the remember flag set: the one
    shape on which [_onCheckSession] writes the session id to
    [localStorage]. *)
Definition reports_remembered_login (response : JsVal) : bool :=
  match js_prop response "success" with
  | Some success =>
      js_is_true success &&
      match js_prop response "result" with
      | Some result =>
          match js_prop result "success", js_prop result "session" with
          | Some result_success, Some session =>
              js_truthy result_success &&
              match js_prop session "expired", js_prop session "user",
                    js_prop session "remember" with
              | Some session_expired, Some session_user,
                Some session_remember =>
                  negb (js_truthy session_expired) &&
                  js_not_null session_user &&
                  js_truthy session_remember
              | _, _, _ => false
              end
          | _, _ => false
          end
      | None => false
      end
  | None => false
  end.

(** A check-session response that is a call-level success, reports a
    passed check and marks the session as expired. *)
Definition reports_expired (response : JsVal) : bool :=
  match js_prop response "success" with
  | Some success =>
      js_is_true success &&
      match js_prop response "result" with
      | Some result =>
          match js_prop result "success", js_prop result "session" with
          | Some result_success, Some session =>
              js_truthy result_success &&
              match js_prop session "expired" with
              | Some session_expired => js_truthy session_expired
              | None => false
              end
          | _, _ => false
          end
      | None => false
      end
  | None => false
  end.

(** A check-session response that is a call-level success and reports a
    passed check on a live session that has no user yet. *)
Definition reports_no_user (response : JsVal) : bool :=
  match js_prop response "success" with
  | Some success =>
      js_is_true success &&
      match js_prop response "result" with
      | Some result =>
          match js_prop result "success", js_prop result "session" with
          | Some result_success, Some session =>
              js_truthy result_success &&
              match js_prop session "expired", js_prop session "user" with
              | Some session_expired, Some session_user =>
                  negb (js_truthy session_expired) &&
                  negb (js_not_null session_user)
              | _, _ => false
              end
          | _, _ => false
          end
      | None => false
      end
  | None => false
  end.



(** At most one remote call is in flight, and while one is, the mode is
    ["wait"]. *)
Definition one_in_flight (w : World) : Prop :=
  pending w = [] \/
  exists c, pending w = [c] /\ mode (sess w) = JStr "wait".

(** A record that carries a session: an object whose [session] field is
    neither missing nor null. *)
Definition has_session (v : JsVal) : bool :=
  match v with
  | JObj fields =>
      match assoc "session" fields with
      | JUndefined | JNull => false
      | _ => true
      end
  | _ => false
  end.

(** The shapes of [response.result] that the start-session handler is
    written for: a single record carrying a session, or an array with an
    element tagged as the start-session result. *)
Definition start_result_expected (result : JsVal) : Prop :=
  (exists fields, result = JObj fields /\ has_session result = true) \/
  (exists elems,
     result = JArr elems /\ Exists (fun x => is_tagged x = true) elems).

(** What a response holds for the start-session handler: a call-level
    failure, a new session id with its passport URL, or nothing the
    handler can read. *)
Inductive StartReading : Type :=
| StartFailed
| Started (session_id passport : JsVal)
| Unreadable.

Definition read_start (response : JsVal) : StartReading :=
  match js_prop response "success" with
  | Some success =>
      if js_is_true success then
        match js_prop response "result" with
        | Some result =>
            match js_prop (select_result result) "session" with
            | Some session =>
                match js_prop session "id",
                      js_prop session "passport_url" with
                | Some session_id, Some passport =>
                    Started session_id passport
                | _, _ => Unreadable
                end
            | None => Unreadable
            end
        | None => Unreadable
        end
      else StartFailed
  | None => Unreadable
  end.

(** Nothing of the lifecycle has moved between two worlds: status, retry
    counter, guard, both modes, session id, calls in flight and storage
    are the same. *)
Definition frozen (w w' : World) : Prop :=
  status (sess w') = status (sess w) /\
  totalAttempts (sess w') = totalAttempts (sess w) /\
  canUpdate (sess w') = canUpdate (sess w) /\
  mode (sess w') = mode (sess w) /\
  _mode (sess w') = _mode (sess w) /\
  id (sess w') = id (sess w) /\
  pending w' = pending w /\
  localStorage w' = localStorage w.

(** The ticks of a driver that does nothing but call [update]. *)
Definition ticks (ts : list (Z * bool)) : list Op :=
  map (fun t => OpUpdate (fst t) (snd t)) ts.

(** Postcondition form of running a method: [wp m w Q] says that [Q] holds
    of the outcome of [m] started in [w]. *)
Definition wp {A} (m : M A) (w : World) (Q : Outcome A -> Prop) : Prop :=
  Q (m w).

(** Sample data for the closed statements below. *)
Definition sample_core : Core := {| appID := "39685" |}.

Definition sample_key : string := "_ngio_39685_session_".

Definition response_failure : JsVal := JObj [("success", JBool false)].

Definition session_record (sid url : string) : JsVal :=
  JObj [("__object", JStr "App.startSession");
        ("success", JBool true);
        ("session", JObj [("id", JStr sid); ("passport_url", JStr url)])].

Definition response_started (sid url : string) : JsVal :=
  JObj [("success", JBool true); ("result", session_record sid url)].

Definition response_batch (sid url : string) : JsVal :=
  JObj [("success", JBool true);
        ("result", JArr [JObj [("__object", JStr "App.endSession");
                               ("success", JBool true)];
                         session_record sid url])].

Definition response_check_failed (code : Z) : JsVal :=
  JObj [("success", JBool true);
        ("result", JObj [("success", JBool false);
                         ("error", JObj [("code", JNum code)])])].

Definition response_checked (expired_flag : bool) (user_record : JsVal)
    (remember_flag : bool) : JsVal :=
  JObj [("success", JBool true);
        ("result", JObj [("success", JBool true);
                         ("session", JObj [("expired", JBool expired_flag);
                                           ("user", user_record);
                                           ("remember", JBool remember_flag)])])].

Definition sample_user : JsVal := JObj [("id", JNum 1); ("name", JStr "tom")].

(** The run that logs a session in: a first tick starts a session, the
    user opens the login page, and the next tick polls the session with the
    answer [answer]. *)
Definition poll_once (answer : JsVal) : list Op :=
  [OpUpdate 0 false;
   OpComplete 0 250 (response_started "4f2a" "https://passport");
   OpOpenLoginPage;
   OpUpdate 5000 false;
   OpComplete 0 5250 answer].

(** One round of a user logging out while the server is down, from time
    [t] on: the batch fails, the next tick retries, the retry fails. *)
Definition outage_round (t : Z) : list Op :=
  [OpLogOut false;
   OpComplete 0 (t + 100) response_failure;
   OpUpdate (t + 5000) false;
   OpComplete 0 (t + 5100) response_failure].

Definition outage (rounds : nat) : list Op :=
  flat_map (fun k => outage_round (10000 * Z.of_nat k)) (seq 0 rounds).

(** [get waiting()]: whether the status differs from the one the last
    [update] recorded. *)
Definition waiting (s : Session) : bool :=
  bool_decide (lastStatus s <> Some (status s)).

(** A response that is a call-level failure: it has a [success] field
    that is not [true]. *)
Definition reports_call_failure (response : JsVal) : bool :=
  match js_prop response "success" with
  | Some success => negb (js_is_true success)
  | None => false
  end.

(** A check-session response that is a call-level success and reports a
    passed check on a live session whose [user] is not null. *)
Definition reports_login (response : JsVal) : bool :=
  match js_prop response "success" with
  | Some success =>
      js_is_true success &&
      match js_prop response "result" with
      | Some result =>
          match js_prop result "success", js_prop result "session" with
          | Some result_success, Some session =>
              js_truthy result_success &&
              match js_prop session "expired", js_prop session "user" with
              | Some session_expired, Some session_user =>
                  negb (js_truthy session_expired) &&
                  js_not_null session_user
              | _, _ => false
              end
          | _, _ => false
          end
      | None => false
      end
  | None => false
  end.

(** A check-session response that is a call-level success and reports a
    failed check without an error record to read the code from. *)
Definition reports_failure_without_error (response : JsVal) : bool :=
  match js_prop response "success" with
  | Some success =>
      js_is_true success &&
      match js_prop response "result" with
      | Some result =>
          match js_prop result "success", js_prop result "error" with
          | Some result_success, Some error =>
              negb (js_truthy result_success) &&
              match js_prop error "code" with
              | Some _ => false
              | None => true
              end
          | _, _ => false
          end
      | None => false
      end
  | None => false
  end.

(** The world with the private [_mode] field blanked. *)
Definition without__mode (w : World) : World :=
  with_sess (set__mode JUndefined) w.

(* ------------------------------------------------------------------ *)
(** ** Reasoning rules *)

Section WpRules.
Context {A B : Type}.

Lemma wp_bind (m : M A) (k : A -> M B) w Q :
  wp m w (fun o => match o with
                   | Ok a w' => wp (k a) w' Q
                   | TypeError w' => Q (TypeError w')
                   end) ->
  wp (bind m k) w Q.
Proof. unfold wp, bind. destruct (m w); auto. Qed.

Lemma wp_ret (a : A) w Q : Q (Ok a w) -> wp (ret a) w Q.
Proof. auto. Qed.

Lemma wp_throw w (Q : Outcome A -> Prop) : Q (TypeError w) -> wp throw w Q.
Proof. auto. Qed.

Lemma wp_fun (f : World -> Outcome A) w Q : Q (f w) -> wp f w Q.
Proof. auto. Qed.
End WpRules.

Lemma wp_assign f w Q : Q (Ok tt (with_sess f w)) -> wp (assign f) w Q.
Proof. auto. Qed.

Lemma wp_this w Q : Q (Ok (sess w) w) -> wp this w Q.
Proof. auto. Qed.

Lemma wp_emit e w Q :
  Q (Ok tt (with_events (fun es => es ++ [e]) w)) -> wp (emit e) w Q.
Proof. auto. Qed.

Lemma wp_getItem key w Q :
  Q (Ok (match localStorage w !! js_toString key with
         | Some v => JStr v
         | None => JNull
         end) w) ->
  wp (getItem key) w Q.
Proof. auto. Qed.

Lemma wp_setItem key v w Q :
  Q (Ok tt (with_localStorage
              (fun m => <[js_toString key := js_toString v]> m) w)) ->
  wp (setItem key v) w Q.
Proof. auto. Qed.

(** Projections of written records, and nothing else. *)
Ltac wp_norm :=
  cbv beta iota;
  cbn [sess localStorage queued pending events
       with_sess with_localStorage with_queued with_pending with_events
       status lastStatus statusChanged lastUpdate canUpdate _mode
       totalAttempts maxAttempts uri_id saved_id ngioCore mode id user
       remember expired passport_url
       set_status set_lastStatus set_statusChanged set_lastUpdate
       set_canUpdate set__mode set_totalAttempts set_uri_id set_saved_id
       set_mode set_id set_user set_remember set_expired set_passport_url
       final returns components handler js_toString] in *.

Ltac head_of t := lazymatch t with ?f _ => head_of f | _ => t end.

(** One statement of the method under execution. *)
Ltac wp_step :=
  lazymatch goal with
  | |- wp (bind _ _) _ _ => apply wp_bind
  | |- wp (ret _) _ _ => apply wp_ret; wp_norm
  | |- wp throw _ _ => apply wp_throw; wp_norm
  | |- wp (assign _) _ _ => apply wp_assign; wp_norm
  | |- wp this _ _ => apply wp_this; wp_norm
  | |- wp (emit _) _ _ => apply wp_emit; wp_norm
  | |- wp (getItem _) _ _ => apply wp_getItem; wp_norm
  | |- wp (setItem _ _) _ _ => apply wp_setItem; wp_norm
  | |- wp (when _ _) _ _ => unfold when
  | |- wp (get _ _) _ _ => unfold get
  | |- wp (if ?b then _ else _) _ _ =>
      first [ match goal with E : b = _ |- _ => rewrite E; cbv iota end
            | destruct b eqn:? ]
  | |- wp (match ?x with _ => _ end) _ _ =>
      first [ match goal with E : x = _ |- _ => rewrite E; cbv iota end
            | destruct x eqn:? ]
  | |- wp (let _ := _ in _) _ _ => cbv zeta
  | |- wp (fun _ => _) _ _ => apply wp_fun; wp_norm
  | |- wp ?m _ _ => let h := head_of m in unfold h
  end.

(** Put a goal about [m w] in postcondition form. *)
Ltac wp_start :=
  match goal with
  | |- context [?m ?w] =>
      match type of m with
      | M _ => pattern (m w);
          lazymatch goal with |- ?Q (m w) => change (wp m w Q) end
      end
  end.

(** Take apart the hypothesis that a response has a given shape. *)
Ltac open_shape :=
  repeat match goal with
    | H : context [match js_prop ?v ?k with _ => _ end] |- _ =>
        destruct (js_prop v k) eqn:?; try discriminate H
    | H : (_ && _) = true |- _ => apply andb_true_iff in H; destruct H
    | H : false = true |- _ => discriminate H
    end.

(** Name the fields of the starting world. *)
Ltac open_world w :=
  let s := fresh "s" in
  destruct w as [s ? ? ? ?]; destruct s; wp_norm.

Lemma wp_complete i now response w Q :
  (forall p, pending w !! i = Some p ->
     wp (run_handler (handler p) now response) (with_pending (delete i) w) Q) ->
  (pending w !! i = None -> Q (Ok tt w)) ->
  wp (complete i now response) w Q.
Proof.
  unfold wp, complete. intros Hsome Hnone.
  destruct (pending w !! i) as [p|]; auto.
Qed.

Lemma count_onChange_app (es es' : list Event) :
  count_onChange (es ++ es') = (count_onChange es + count_onChange es')%nat.
Proof.
  induction es as [|e es IH]; simpl; [reflexivity|].
  destruct e; simpl; rewrite IH; reflexivity.
Qed.

(** Run an operation of the session from an opened world. *)
Ltac wp_exec :=
  wp_start;
  repeat first
    [ lazymatch goal with
      | |- wp (complete _ _ _) _ _ =>
          apply wp_complete;
          [ intros [? ?] ?Hcall; rewrite ?Hcall; wp_norm
          | intros ?Hcall; rewrite ?Hcall; wp_norm ]
      end
    | wp_step ].

(* ------------------------------------------------------------------ *)
(** ** The status observed by [update] *)

Lemma other_ops_leave_observation (op : Op) (w : World) :
  is_update op = false ->
  lastStatus (sess (step w op)) = lastStatus (sess w) /\
  statusChanged (sess (step w op)) = statusChanged (sess w) /\
  count_onChange (events (step w op)) = count_onChange (events w).
Proof.
  intros Hop. unfold step.
  destruct op; try discriminate Hop; cbn [exec]; open_world w; wp_exec;
    rewrite ?count_onChange_app; simpl; auto with lia.
Qed.

Lemma update_observes (w : World) (now : Z) (callback : bool) :
  returns (update now callback w) = true /\
  statusChanged (sess (final (update now callback w))) =
    bool_decide (lastStatus (sess w) <> Some (status (sess w))) /\
  lastStatus (sess (final (update now callback w))) =
    Some (status (sess w)) /\
  count_onChange (events (final (update now callback w))) =
    (count_onChange (events w) +
     (if callback &&
         bool_decide (lastStatus (sess w) <> Some (status (sess w)))
      then 1 else 0))%nat.
Proof.
  open_world w. wp_exec;
    rewrite ?count_onChange_app; simpl; repeat split; auto with lia;
    try match goal with
        | H : bool_decide (?a <> ?b) = false |- ?a = ?b =>
            apply bool_decide_eq_false in H;
            destruct (decide (a = b)); [assumption | contradiction]
        end;
    rewrite ?andb_false_r; simpl; lia.
Qed.

(** C3: every [update] call returns, recomputes [statusChanged] once, to
    true exactly when the status differs from the one recorded by the
    previous [update] call ([lastStatus]), records the current status, and
    runs the callback once when a callback is given and [statusChanged]
    became true, and not at all otherwise; between [update] calls no other
    operation touches [lastStatus] or [statusChanged] or runs the
    callback. *)
Theorem update_statusChanged (w : World) (now : Z) (callback : bool) :
  let o := update now callback w in
  let changed :=
    bool_decide (lastStatus (sess w) <> Some (status (sess w))) in
  returns o = true /\
  statusChanged (sess (final o)) = changed /\
  lastStatus (sess (final o)) = Some (status (sess w)) /\
  count_onChange (events (final o)) =
    (count_onChange (events w) + (if callback && changed then 1 else 0))%nat /\
  (forall op w0, is_update op = false ->
     lastStatus (sess (step w0 op)) = lastStatus (sess w0) /\
     statusChanged (sess (step w0 op)) = statusChanged (sess w0) /\
     count_onChange (events (step w0 op)) = count_onChange (events w0)).
Proof.
  cbv zeta.
  destruct (update_observes w now callback) as (Hret & Hchanged & Hlast & Hcb).
  repeat split; try assumption;
    apply other_ops_leave_observation; assumption.
Qed.

(* ------------------------------------------------------------------ *)
(** ** The five-second rate limit of [update] *)

Ltac bool_hyps :=
  repeat match goal with
    | H : (_ <? _) = true |- _ => apply Z.ltb_lt in H
    | H : (_ <? _) = false |- _ => apply Z.ltb_ge in H
    | H : (_ <=? _) = true |- _ => apply Z.leb_le in H
    | H : (_ <=? _) = false |- _ => apply Z.leb_gt in H
    | H : bool_decide _ = true |- _ => apply bool_decide_eq_true in H
    | H : bool_decide _ = false |- _ => apply bool_decide_eq_false in H
    | H : _ || _ = false |- _ => apply orb_false_iff in H; destruct H
    | H : _ && _ = true |- _ => apply andb_true_iff in H; destruct H
    | H : negb _ = true |- _ => apply negb_true_iff in H
    | H : negb _ = false |- _ => apply negb_false_iff in H
    end.





(* ------------------------------------------------------------------ *)
(** ** Classification of an uninitialized session *)

Lemma update_classifies (c : Core) (w : World) (now : Z) (callback : bool) :
  status (sess w) = SESSION_UNINITIALIZED ->
  canUpdate (sess w) = true ->
  js_loose_eq_lit (mode (sess w)) "wait" = false ->
  ngioCore (sess w) = Some c ->
  let w' := final (update now callback w) in
  let saved :=
    match localStorage w !! ("_ngio_" +:+ appID c +:+ "_session_") with
    | Some v => JStr v
    | None => JNull
    end in
  let sid :=
    if js_truthy (uri_id (sess w)) then uri_id (sess w)
    else if js_truthy saved then saved
    else id (sess w) in
  let usable := js_truthy sid && negb (js_strict_eq_str sid "null") in
  id (sess w') = sid /\
  (now - lastUpdate (sess w) < 5000 ->
     mode (sess w') = JStr (if usable then "check" else "new") /\
     saved_id (sess w') = saved /\
     pending w' = pending w) /\
  (5000 <= now - lastUpdate (sess w) ->
     mode (sess w') = JStr "wait" /\
     pending w' =
       pending w ++
       [if usable then mkPending ["App.checkSession"] HOnCheckSession
        else mkPending ["App.startSession"] HOnStartSession]).
Proof.
  open_world w. intros Hst Hcan Hmode Hcore. subst.
  wp_exec.
  all: try solve [ rewrite Hmode in *; simpl in *; discriminate ].
  all: bool_hyps; try congruence.
  all: repeat split; intros; try lia; try reflexivity.
  all: repeat match goal with
         | H : context [if ?b then _ else _] |- _ =>
             destruct b eqn:?; simpl in H
         | |- context [if ?b then _ else _] => destruct b eqn:?; simpl
         end;
       try reflexivity; try discriminate; try congruence.

Qed.

Lemma remember_persists (c : Core) (w : World) (now : Z) (response : JsVal)
    (sid : string) :
  ngioCore (sess w) = Some c ->
  id (sess w) = JStr sid ->
  reports_remembered_login response = true ->
  let w' := final (_onCheckSession now response w) in
  localStorage w' !! ("_ngio_" +:+ appID c +:+ "_session_") = Some sid /\
  saved_id (sess w') = JStr sid /\
  remember (sess w') = JBool true /\
  status (sess w') = LOGIN_SUCCESSFUL.
Proof.
  open_world w. intros Hcore Hid Hresp. subst.
  unfold reports_remembered_login in Hresp. open_shape.
  wp_exec; bool_hyps; try congruence.
  repeat split. apply lookup_insert_eq.
Qed.

Lemma fresh_session_checks (c : Core) (storage : gmap string string)
    (created now : Z) (callback : bool) (sid : string) :
  storage !! ("_ngio_" +:+ appID c +:+ "_session_") = Some sid ->
  sid <> "" ->
  sid <> "null" ->
  let w' := final (update now callback (newWorld created (Some c) storage)) in
  id (sess w') = JStr sid /\
  (now - created < -25000 ->
     mode (sess w') = JStr "check" /\ pending w' = []) /\
  (-25000 <= now - created ->
     mode (sess w') = JStr "wait" /\
     pending w' = [mkPending ["App.checkSession"] HOnCheckSession]).
Proof.
  intros Hitem Hne Hnn. cbv zeta.
  destruct (update_classifies c (newWorld created (Some c) storage) now
              callback eq_refl eq_refl eq_refl eq_refl)
    as (Hid & Hearly & Hlate).
  cbn [newWorld newSession sess localStorage pending uri_id id lastUpdate
       js_truthy] in Hid, Hearly, Hlate.
  rewrite Hitem in Hid, Hearly, Hlate.
  apply String.eqb_neq in Hne. apply String.eqb_neq in Hnn.
  cbn [js_truthy js_strict_eq_str] in Hid, Hearly, Hlate.
  rewrite Hne in Hid, Hearly, Hlate.
  cbn [js_truthy js_strict_eq_str negb andb app] in Hid, Hearly, Hlate.
  rewrite Hne, Hnn in Hearly, Hlate.
  cbn [negb andb] in Hearly, Hlate.
  split; [exact Hid|]. split; intros H.
  - destruct Hearly as (Hm & _ & Hp); [lia|]. auto.
  - apply Hlate. lia.
Qed.

(** C5 (as the code has it): when [update] passes its guards with the
    status Uninitialized, it loads the remembered id from storage, sets the
    session id to the URI id when that is truthy, else to the remembered id
    when that is truthy, and takes the session as one to check exactly when
    the resulting id is truthy (not null, not undefined, not the empty
    string) and not the string "null", as a new one otherwise: the mode is
    "check" or "new" accordingly when the rate limit stops the tick, and
    otherwise the matching call is sent and the mode is "wait".  So a
    non-empty id other than "null" that the remember path stored makes the
    first [update] of a fresh session on the same storage key take the
    check path. *)
Theorem update_classifies_session (c : Core) (w : World) (now : Z)
    (callback : bool) :
  status (sess w) = SESSION_UNINITIALIZED ->
  canUpdate (sess w) = true ->
  js_loose_eq_lit (mode (sess w)) "wait" = false ->
  ngioCore (sess w) = Some c ->
  let w' := final (update now callback w) in
  let saved :=
    match localStorage w !! ("_ngio_" +:+ appID c +:+ "_session_") with
    | Some v => JStr v
    | None => JNull
    end in
  let sid :=
    if js_truthy (uri_id (sess w)) then uri_id (sess w)
    else if js_truthy saved then saved
    else id (sess w) in
  let usable := js_truthy sid && negb (js_strict_eq_str sid "null") in
  (id (sess w') = sid /\
   (now - lastUpdate (sess w) < 5000 ->
      mode (sess w') = JStr (if usable then "check" else "new") /\
      saved_id (sess w') = saved /\
      pending w' = pending w) /\
   (5000 <= now - lastUpdate (sess w) ->
      mode (sess w') = JStr "wait" /\
      pending w' =
        pending w ++
        [if usable then mkPending ["App.checkSession"] HOnCheckSession
         else mkPending ["App.startSession"] HOnStartSession])) /\
  (forall w0 t response stored created now1 callback1,
     ngioCore (sess w0) = Some c ->
     id (sess w0) = JStr stored ->
     stored <> "" ->
     stored <> "null" ->
     reports_remembered_login response = true ->
     let storage := localStorage (final (_onCheckSession t response w0)) in
     let w1 :=
       final (update now1 callback1 (newWorld created (Some c) storage)) in
     id (sess w1) = JStr stored /\
     (now1 - created < -25000 ->
        mode (sess w1) = JStr "check" /\ pending w1 = []) /\
     (-25000 <= now1 - created ->
        mode (sess w1) = JStr "wait" /\
        pending w1 = [mkPending ["App.checkSession"] HOnCheckSession])).
Proof.
  intros Hst Hcan Hmode Hcore. cbv zeta. split.
  - apply update_classifies; assumption.
  - intros w0 t response stored created now1 callback1 Hcore0 Hid Hne Hnn Hresp.
    apply fresh_session_checks; try assumption.
    apply (remember_persists c w0 t response stored); assumption.
Qed.

Lemma update_classifies_session_witness :
  id (sess (final (update 0 false
                     (newWorld 0 (Some sample_core)
                        {[sample_key := "4f2a"]})))) = JStr "4f2a".
Proof.
  pose proof (update_classifies_session sample_core
                (newWorld 0 (Some sample_core) {[sample_key := "4f2a"]})
                0 false eq_refl eq_refl eq_refl eq_refl) as H.
  cbv zeta in H. destruct H as ((Hid & _) & _).
  rewrite Hid. vm_compute. reflexivity.
Defined.

(** C5 as stated fails on an id that is the empty string, which is neither
    null nor "null" and still makes the session a new one; the first
    [update] of a fresh session that reads a remembered id back ends with
    the mode "wait", the check call sent; and an [update] that its guard
    stops (here [canUpdate] is false, a log-out being in flight) loads
    nothing, although the status is Uninitialized. *)
Lemma update_classifies_counterexample :
  let w :=
    with_sess (fun s => set_lastUpdate 0 (set_id (JStr "") s))
      (newWorld 0 (Some sample_core) ∅) in
  let w' := final (update 1000 false w) in
  let fresh := newWorld 0 (Some sample_core) {[sample_key := "4f2a"]} in
  let busy := step fresh (OpLogOut false) in
  (status (sess w) = SESSION_UNINITIALIZED /\
   id (sess w') = JStr "" /\
   id (sess w') <> JNull /\
   id (sess w') <> JStr "null" /\
   mode (sess w') = JStr "new") /\
  (id (sess (final (update 0 false fresh))) = JStr "4f2a" /\
   mode (sess (final (update 0 false fresh))) = JStr "wait" /\
   pending (final (update 0 false fresh)) =
     [mkPending ["App.checkSession"] HOnCheckSession]) /\
  (status (sess busy) = SESSION_UNINITIALIZED /\
   canUpdate (sess busy) = false /\
   saved_id (sess (final (update 0 false busy))) = JNull /\
   id (sess (final (update 0 false busy))) = JNull).
Proof.
  vm_compute. repeat split; congruence.
Qed.

(* ------------------------------------------------------------------ *)
(** ** The retry counter *)






(* ------------------------------------------------------------------ *)
(** ** The [canUpdate] guard and the calls in flight *)

Lemma update_guarded (w : World) (now : Z) (callback : bool) :
  canUpdate (sess w) = false ->
  pending (final (update now callback w)) = pending w /\
  queued (final (update now callback w)) = queued w /\
  canUpdate (sess (final (update now callback w))) = false.
Proof.
  open_world w. intros Hcan. subst.
  wp_exec; try discriminate; repeat split; reflexivity.
Qed.

Lemma sends_call_unguarded (op : Op) (w : World) :
  sends_call op = true ->
  ngioCore (sess w) <> None ->
  exists c,
    pending (step w op) = pending w ++ [c] /\
    canUpdate (sess (step w op)) = false.
Proof.
  unfold step. intros Hop Hcore.
  destruct op; try discriminate Hop; cbn [exec]; open_world w; wp_exec;
    try congruence; eexists; split; reflexivity.
Qed.

Lemma canUpdate_raised_by_handlers_only (op : Op) (w : World) :
  is_complete op = false ->
  canUpdate (sess (step w op)) = true ->
  canUpdate (sess w) = true.
Proof.
  unfold step. intros Hop.
  destruct op; try discriminate Hop; cbn [exec]; open_world w; wp_exec;
    intros; congruence.
Qed.

Lemma step_one_in_flight (op : Op) (w : World) :
  driver_op op = true ->
  one_in_flight w ->
  one_in_flight (step w op).
Proof.
  unfold step, one_in_flight. intros Hop Hinv.
  destruct op; try discriminate Hop; cbn [exec]; open_world w.
  - destruct Hinv as [-> | (c & -> & ->)].
    + wp_exec; solve [ left; reflexivity
                     | right; eexists; split; reflexivity ].
    + wp_exec; try solve [ right; eexists; split; reflexivity ];
        bool_hyps; simpl in *; discriminate.
  - destruct Hinv as [-> | (c & -> & ->)].
    + wp_exec; try discriminate; left; reflexivity.
    + wp_exec;
        try (destruct i; simpl in *; [|discriminate]);
        solve [ left; reflexivity
              | right; eexists; split; reflexivity ].
Qed.

Lemma run_one_in_flight (ops : list Op) (w : World) :
  forallb driver_op ops = true ->
  one_in_flight w ->
  one_in_flight (run ops w).
Proof.
  revert w. induction ops as [|op ops IH]; intros w Hops Hinv; simpl.
  - exact Hinv.
  - simpl in Hops. apply andb_true_iff in Hops as [Hop Hops].
    apply IH; [exact Hops|]. apply step_one_in_flight; assumption.
Qed.

(** C1 (as the code has it): [update] sends nothing while [canUpdate] is
    false, and in a run that consists of [update] ticks and completed
    calls alone at most one remote call is in flight at any time.
    [startSession], [checkSession], [endSession], [logOut] and
    [cancelLogin] do not consult the guard: with a core attached each of
    them sends its call whatever [canUpdate] says, and leaves [canUpdate]
    false.  Nothing but the completion of a call sets [canUpdate] back to
    true. *)
Theorem canUpdate_guard (ops : list Op) (w : World) :
  forallb driver_op ops = true ->
  pending w = [] ->
  (length (pending (run ops w)) <= 1)%nat /\
  (forall w0 now callback,
     canUpdate (sess w0) = false ->
     pending (final (update now callback w0)) = pending w0 /\
     queued (final (update now callback w0)) = queued w0 /\
     canUpdate (sess (final (update now callback w0))) = false) /\
  (forall op w0,
     sends_call op = true ->
     ngioCore (sess w0) <> None ->
     exists c,
       pending (step w0 op) = pending w0 ++ [c] /\
       canUpdate (sess (step w0 op)) = false) /\
  (forall op w0,
     is_complete op = false ->
     canUpdate (sess (step w0 op)) = true ->
     canUpdate (sess w0) = true).
Proof.
  intros Hops Hquiet. split.
  - destruct (run_one_in_flight ops w Hops (or_introl Hquiet))
      as [-> | (c & -> & _)]; simpl; lia.
  - split; [apply update_guarded|].
    split; [apply sends_call_unguarded|].
    apply canUpdate_raised_by_handlers_only.
Qed.

Lemma canUpdate_guard_witness :
  let ops := [OpUpdate 0 true;
              OpUpdate 16 true;
              OpComplete 0 250 (response_started "4f2a" "https://passport");
              OpUpdate 5016 true] in
  (length (pending (run ops (newWorld 0 (Some sample_core) ∅))) <= 1)%nat.
Proof.
  cbv zeta.
  refine (proj1 (canUpdate_guard _ (newWorld 0 (Some sample_core) ∅) _ _));
    reflexivity.
Defined.

(** C1 as stated fails twice.  [logOut], called while the start-session
    call of an [update] is in flight and [canUpdate] is false, sends a
    second call.  And when the check handler cancels the login on a
    reported failure, the end-session batch it sends is still in flight
    when the handler sets [canUpdate] back to true. *)
Lemma canUpdate_guard_counterexample :
  let w0 := newWorld 0 (Some sample_core) ∅ in
  let w1 := step w0 (OpUpdate 0 false) in
  let w2 := step w1 (OpLogOut false) in
  let w3 :=
    run [OpUpdate 0 false;
         OpComplete 0 250 (response_started "4f2a" "https://passport");
         OpOpenLoginPage;
         OpUpdate 5000 false;
         OpComplete 0 5250 (response_check_failed 111)] w0 in
  (canUpdate (sess w1) = false /\
   pending w1 = [mkPending ["App.startSession"] HOnStartSession] /\
   pending w2 = [mkPending ["App.startSession"] HOnStartSession;
                 mkPending ["App.endSession"; "App.startSession"]
                   (HOnEndThenStart false)]) /\
  (canUpdate (sess w3) = true /\
   pending w3 = [mkPending ["App.endSession"; "App.startSession"]
                   (HOnEndThenStart false)]).
Proof.
  vm_compute. repeat split; reflexivity.
Qed.
(* ------------------------------------------------------------------ *)
(** ** The start-session handler *)

Lemma scan_spec (elems : list JsVal) (result : JsVal) :
  (Forall (fun x => is_tagged x = false) elems /\ scan elems result = result) \/
  (Exists (fun x => is_tagged x = true) elems /\
   is_tagged (scan elems result) = true).
Proof.
  induction elems as [|x elems IH]; simpl.
  - left. split; [constructor | reflexivity].
  - destruct (is_tagged x) eqn:Hx.
    + right. split; [left; exact Hx | exact Hx].
    + destruct IH as [[Hnone Hsame] | [Hsome Htag]].
      * left. split; [constructor; assumption | exact Hsame].
      * right. split; [right; exact Hsome | exact Htag].
Qed.

Lemma has_session_reads (v session : JsVal) :
  js_prop v "session" = Some session ->
  has_session v = match js_prop session "id" with
                  | Some _ => true
                  | None => false
                  end.
Proof.
  destruct v; simpl; try discriminate;
    intros [= <-]; try reflexivity.
  destruct (assoc "session" fields); reflexivity.
Qed.

Lemma selected_session_expected (result : JsVal) :
  has_session (select_result result) = true ->
  start_result_expected result.
Proof.
  intros Hsess. destruct result; simpl in Hsess; try discriminate.
  - right. exists elems. split; [reflexivity|].
    destruct (scan_spec elems (JArr elems)) as [[_ Hsame] | [Hsome _]].
    + rewrite Hsame in Hsess. discriminate.
    + exact Hsome.
  - left. exists fields. split; [reflexivity | exact Hsess].
Qed.

Lemma _onStartSession_returns (response result : JsVal) (w : World) :
  js_prop response "success" = Some (JBool true) ->
  js_prop response "result" = Some result ->
  returns (_onStartSession response w) = has_session (select_result result) /\
  (has_session (select_result result) = false ->
   final (_onStartSession response w) = w).
Proof.
  intros Hsuccess Hresult. open_world w.
  wp_exec;
    try match goal with
        | H : js_prop (select_result _) "session" = Some _ |- _ =>
            rewrite (has_session_reads _ _ H)
        end;
    repeat match goal with
      | H : js_prop ?v ?k = _ |- context [js_prop ?v ?k] => rewrite H
      end;
    try solve [ split; [reflexivity | intros; first [reflexivity | discriminate]] ];
    try discriminate;
    match goal with
    | H1 : js_prop ?v _ = Some _, H2 : js_prop ?v _ = None |- _ =>
        destruct v; discriminate
    | H : js_prop ?v "session" = None |- _ =>
        destruct v; try discriminate H; split; reflexivity
    end.
Qed.

(** C10: on a call-level success the start-session handler reads the
    session id and the passport URL without a TypeError exactly when the
    record it selects carries a session; so it does only if
    [response.result] is a single record carrying a session or an array
    with an element tagged as the start-session result.  When the result
    is an array without a tagged element, the scan leaves [result] bound
    to the whole array, its [session] is undefined, and the handler throws
    on reading [session.id], leaving the session as it was. *)
Theorem _onStartSession_extraction (response result : JsVal) (w : World) :
  js_prop response "success" = Some (JBool true) ->
  js_prop response "result" = Some result ->
  returns (_onStartSession response w) = has_session (select_result result) /\
  (returns (_onStartSession response w) = true ->
   start_result_expected result) /\
  (forall elems,
     result = JArr elems ->
     Forall (fun x => is_tagged x = false) elems ->
     select_result result = result /\
     js_prop (select_result result) "session" = Some JUndefined /\
     returns (_onStartSession response w) = false /\
     final (_onStartSession response w) = w).
Proof.
  intros Hsuccess Hresult.
  destruct (_onStartSession_returns response result w Hsuccess Hresult)
    as [Hret Hsame].
  split; [exact Hret|]. split.
  - rewrite Hret. apply selected_session_expected.
  - intros elems -> Hnone.
    assert (Hscan : select_result (JArr elems) = JArr elems).
    { simpl. destruct (scan_spec elems (JArr elems)) as [[_ H] | [Hsome _]];
        [exact H|].
      apply Exists_exists in Hsome as (x & Hx & Htag).
      rewrite Forall_forall in Hnone. rewrite (Hnone x Hx) in Htag.
      discriminate. }
    rewrite Hscan in *. repeat split; auto.
Qed.

Lemma _onStartSession_extraction_witness :
  returns (_onStartSession (response_batch "4f2a" "https://passport")
             (newWorld 0 (Some sample_core) ∅)) = true /\
  start_result_expected
    (JArr [JObj [("__object", JStr "App.endSession"); ("success", JBool true)];
           session_record "4f2a" "https://passport"]).
Proof.
  destruct (_onStartSession_extraction
              (response_batch "4f2a" "https://passport")
              (JArr [JObj [("__object", JStr "App.endSession");
                           ("success", JBool true)];
                     session_record "4f2a" "https://passport"])
              (newWorld 0 (Some sample_core) ∅) eq_refl eq_refl)
    as (Hret & Hexpected & _).
  split; [|apply Hexpected]; rewrite Hret; reflexivity.
Defined.

(* ------------------------------------------------------------------ *)
(** ** Logging out: the end-session and start-session batch *)

Lemma logOut_sends_batch (c : Core) (w : World) (callback : bool) :
  ngioCore (sess w) = Some c ->
  returns (logOut callback w) = true /\
  pending (final (logOut callback w)) =
    pending w ++
    [mkPending (queued w ++ ["App.endSession"; "App.startSession"])
       (HOnEndThenStart callback)] /\
  queued (final (logOut callback w)) = [] /\
  canUpdate (sess (final (logOut callback w))) = false /\
  mode (sess (final (logOut callback w))) = JStr "wait" /\
  id (sess (final (logOut callback w))) = id (sess w) /\
  status (sess (final (logOut callback w))) = status (sess w) /\
  events (final (logOut callback w)) = events w.
Proof.
  open_world w. intros Hcore. subst.
  wp_exec. rewrite <- app_assoc. repeat split; reflexivity.
Qed.

Lemma batch_handler_outcome (callback : bool) (now : Z) (response : JsVal)
    (w : World) :
  let o := run_handler (HOnEndThenStart callback) now response w in
  pending (final o) = pending w /\
  canUpdate (sess (final o)) = true /\
  user (sess (final o)) = JNull /\
  match read_start response with
  | Started session_id passport =>
      returns o = true /\
      status (sess (final o)) = LOGIN_REQUIRED /\
      id (sess (final o)) = session_id /\
      passport_url (sess (final o)) = passport /\
      mode (sess (final o)) = JStr "wait" /\
      events (final o) = events w ++ (if callback then [EvOnComplete] else [])
  | StartFailed =>
      returns o = true /\
      status (sess (final o)) = SERVER_UNAVAILABLE /\
      id (sess (final o)) = JNull /\
      passport_url (sess (final o)) = JNull /\
      mode (sess (final o)) = JStr "new" /\
      events (final o) = events w ++ (if callback then [EvOnComplete] else [])
  | Unreadable =>
      returns o = false /\
      status (sess (final o)) = USER_LOGGED_OUT /\
      id (sess (final o)) = JNull /\
      passport_url (sess (final o)) = JNull /\
      mode (sess (final o)) = JStr "new" /\
      events (final o) = events w
  end.
Proof.
  cbv zeta. unfold read_start. open_world w.
  wp_exec; rewrite ?app_nil_r; repeat split; try reflexivity;
    match goal with
    | H1 : js_prop ?v _ = Some _, H2 : js_prop ?v _ = None |- _ =>
        destruct v; discriminate
    end.
Qed.

(** C9 (as the code has it): with a core attached, [logOut] sets the mode
    to "wait" and sends one request holding the end-session component
    followed by the start-session component, with one completion handler;
    until that request is answered the session id is the old one.  The
    handler runs the end-session handler, then the start-session handler on
    the same response, then the completion callback when one was given.
    After it the status is LoginRequired, with the id and passport URL of
    the new session, when the response is a call-level success from which
    the start-session record can be read, and ServerUnavailable, with a
    null id, when it is a call-level failure; it is never WaitingForServer.
    When the start-session record cannot be read the handler throws after
    the local logout (status UserLoggedOut, null id) and the callback does
    not run.  From the completion on the id is null or the new one. *)
Theorem logOut_batch (c : Core) (w : World) (callback : bool) (now : Z)
    (response : JsVal) :
  ngioCore (sess w) = Some c ->
  let sent := mkPending (queued w ++ ["App.endSession"; "App.startSession"])
                (HOnEndThenStart callback) in
  let w1 := final (logOut callback w) in
  let o := complete (length (pending w)) now response w1 in
  (returns (logOut callback w) = true /\
   pending w1 = pending w ++ [sent] /\
   canUpdate (sess w1) = false /\
   mode (sess w1) = JStr "wait" /\
   id (sess w1) = id (sess w)) /\
  o = ((_onEndSession response ;;
        _onStartSession response ;;
        when callback (emit EvOnComplete))
         (with_pending (delete (length (pending w))) w1)) /\
  pending (final o) = pending w /\
  canUpdate (sess (final o)) = true /\
  status (sess (final o)) <> WAITING_FOR_SERVER /\
  match read_start response with
  | Started session_id passport =>
      returns o = true /\
      status (sess (final o)) = LOGIN_REQUIRED /\
      id (sess (final o)) = session_id /\
      passport_url (sess (final o)) = passport /\
      mode (sess (final o)) = JStr "wait" /\
      events (final o) = events w ++ (if callback then [EvOnComplete] else [])
  | StartFailed =>
      returns o = true /\
      status (sess (final o)) = SERVER_UNAVAILABLE /\
      id (sess (final o)) = JNull /\
      passport_url (sess (final o)) = JNull /\
      mode (sess (final o)) = JStr "new" /\
      events (final o) = events w ++ (if callback then [EvOnComplete] else [])
  | Unreadable =>
      returns o = false /\
      status (sess (final o)) = USER_LOGGED_OUT /\
      id (sess (final o)) = JNull /\
      passport_url (sess (final o)) = JNull /\
      mode (sess (final o)) = JStr "new" /\
      events (final o) = events w
  end.
Proof.
  intros Hcore. cbv zeta.
  destruct (logOut_sends_batch c w callback Hcore)
    as (Hret & Hpending & Hqueued & Hcan & Hmode & Hid & Hstatus & Hevents).
  assert (Hcall :
    pending (final (logOut callback w)) !! length (pending w) =
    Some (mkPending (queued w ++ ["App.endSession"; "App.startSession"])
            (HOnEndThenStart callback))).
  { rewrite Hpending. apply list_lookup_middle. reflexivity. }
  assert (Hstep :
    complete (length (pending w)) now response (final (logOut callback w)) =
    run_handler (HOnEndThenStart callback) now response
      (with_pending (delete (length (pending w)))
         (final (logOut callback w)))).
  { unfold complete. rewrite Hcall. reflexivity. }
  split; [repeat split; assumption|].
  split; [rewrite Hstep; reflexivity|].
  rewrite Hstep.
  pose proof (batch_handler_outcome callback now response
                (with_pending (delete (length (pending w)))
                   (final (logOut callback w))))
    as (Hp & Hc & _ & Hread).
  cbv zeta in Hp, Hc, Hread.
  cbn [with_pending pending events sess] in Hp, Hread.
  rewrite Hpending in Hp.
  replace (delete (length (pending w)) (pending w ++ [_])) with (pending w)
    in Hp.
  2:{ clear. induction (pending w) as [|p l IH]; simpl; [reflexivity|].
      f_equal. exact IH. }
  rewrite Hevents in Hread.
  split; [exact Hp|]. split; [exact Hc|]. split.
  - destruct (read_start response); destruct Hread as (_ & -> & _);
      discriminate.
  - exact Hread.
Qed.


Lemma logOut_batch_witness :
  let w := newWorld 0 (Some sample_core) ∅ in
  let o := complete 0 40 (response_batch "9c1d" "https://passport")
             (final (logOut true w)) in
  status (sess (final o)) = LOGIN_REQUIRED /\
  id (sess (final o)) = JStr "9c1d" /\
  events (final o) = [EvOnComplete].
Proof.
  cbv zeta.
  destruct (logOut_batch sample_core (newWorld 0 (Some sample_core) ∅) true 40
              (response_batch "9c1d" "https://passport") eq_refl)
    as (_ & _ & _ & _ & _ & Hread).
  vm_compute in Hread. vm_compute.
  destruct Hread as (_ & Hstatus & Hid & _ & _ & Hevents).
  repeat split; assumption.
Defined.

(** C9 as stated fails on a batch that the server does not answer
    successfully: a logged-in session that logs out and gets a call-level
    failure ends in ServerUnavailable, which is neither WaitingForServer
    nor LoginRequired.  While the batch is in flight the session id is
    still the one being logged out. *)
Lemma logOut_batch_counterexample :
  let w :=
    run [OpUpdate 0 false;
         OpComplete 0 250 (response_started "4f2a" "https://passport");
         OpOpenLoginPage;
         OpUpdate 5000 false;
         OpComplete 0 5250 (response_checked false sample_user true)]
      (newWorld 0 (Some sample_core) ∅) in
  let w1 := step w (OpLogOut false) in
  let w2 := step w1 (OpComplete 0 9000 response_failure) in
  (status (sess w) = LOGIN_SUCCESSFUL /\ id (sess w) = JStr "4f2a" /\
   pending w = []) /\
  (id (sess w1) = JStr "4f2a" /\
   pending w1 = [mkPending ["App.endSession"; "App.startSession"]
                   (HOnEndThenStart false)]) /\
  (pending w2 = [] /\
   status (sess w2) = SERVER_UNAVAILABLE /\
   status (sess w2) <> WAITING_FOR_SERVER /\
   status (sess w2) <> LOGIN_REQUIRED /\
   id (sess w2) = JNull).
Proof.
  vm_compute. repeat split; congruence.
Qed.
(* ------------------------------------------------------------------ *)
(** ** A session left in the mode "wait" *)

Lemma update_in_wait (w : World) (now : Z) (callback : bool) :
  mode (sess w) = JStr "wait" ->
  frozen w (final (update now callback w)).
Proof.
  unfold frozen. open_world w. intros Hmode. subst.
  wp_exec;
    solve [ repeat split; reflexivity
          | bool_hyps; simpl in *; discriminate ].
Qed.

Lemma frozen_trans (a b c : World) : frozen a b -> frozen b c -> frozen a c.
Proof.
  unfold frozen. intros H1 H2. repeat split; etransitivity;
    solve [apply H1 | apply H2].
Qed.

Lemma ticks_in_wait (ts : list (Z * bool)) (w : World) :
  mode (sess w) = JStr "wait" ->
  frozen w (run (ticks ts) w).
Proof.
  revert w. induction ts as [|t ts IH]; intros w Hmode.
  - unfold frozen. repeat split; reflexivity.
  - change (frozen w (run (ticks ts) (final (update (fst t) (snd t) w)))).
    pose proof (update_in_wait w (fst t) (snd t) Hmode) as Hstep.
    apply (frozen_trans _ _ _ Hstep). apply IH.
    destruct Hstep as (_ & _ & _ & Hm & _). rewrite Hm. exact Hmode.
Qed.

(** C2: the retry does not run after a failed start.  A fresh session whose
    first tick starts a session and whose start-session call fails is in
    ServerUnavailable with [canUpdate] true and no attempt counted, but
    with the mode still "wait": every later [update] returns at its guard,
    so the status stays ServerUnavailable and [totalAttempts] stays 0
    whatever the ticks.  And where the retry does run (the mode is "new"
    after a failed log-out batch), the tick that finds the attempts spent
    sets ExceededMaxAttempts and goes on to send a start-session call,
    ending in WaitingForServer. *)
Theorem retry_blocked_after_failed_start (ts : list (Z * bool)) :
  let w0 := newWorld 0 (Some sample_core) ∅ in
  let w := run [OpUpdate 0 false; OpComplete 0 250 response_failure] w0 in
  let spent :=
    run (outage 5 ++ [OpLogOut false; OpComplete 0 50100 response_failure])
      w0 in
  (status (sess w) = SERVER_UNAVAILABLE /\
   canUpdate (sess w) = true /\
   mode (sess w) = JStr "wait" /\
   totalAttempts (sess w) = 0 /\
   maxAttempts (sess w) = 5 /\
   pending w = []) /\
  (status (sess (run (ticks ts) w)) = SERVER_UNAVAILABLE /\
   totalAttempts (sess (run (ticks ts) w)) = 0 /\
   pending (run (ticks ts) w) = []) /\
  (status (sess spent) = SERVER_UNAVAILABLE /\
   canUpdate (sess spent) = true /\
   mode (sess spent) = JStr "new" /\
   totalAttempts (sess spent) = 5 /\
   pending spent = [] /\
   status (sess (step spent (OpUpdate 55000 false))) = WAITING_FOR_SERVER /\
   pending (step spent (OpUpdate 55000 false)) =
     [mkPending ["App.startSession"] HOnStartSession]).
Proof.
  cbv zeta.
  assert (Hw :
    let w := run [OpUpdate 0 false; OpComplete 0 250 response_failure]
               (newWorld 0 (Some sample_core) ∅) in
    status (sess w) = SERVER_UNAVAILABLE /\
    canUpdate (sess w) = true /\
    mode (sess w) = JStr "wait" /\
    totalAttempts (sess w) = 0 /\
    maxAttempts (sess w) = 5 /\
    pending w = [])
    by (vm_compute; repeat split; reflexivity).
  cbv zeta in Hw. split; [exact Hw|]. split.
  - destruct Hw as (Hst & _ & Hmode & Hatt & _ & Hp).
    destruct (ticks_in_wait ts _ Hmode) as (-> & -> & _ & _ & _ & _ & -> & _).
    auto.
  - vm_compute. repeat split; reflexivity.
Qed.

(** C6: on a failed check with error code 111 the handler clears the id,
    sets the status LoginCancelled and resets the attempts, but the mode
    it sets to "new" is the private field [_mode]; the mode that [update]
    reads is still "wait", as the tick that sent the check left it, and
    no later tick acts.  With another code the status is LoginFailed and
    the mode is "wait" all the same. *)
Theorem failed_check_leaves_mode_wait (ts : list (Z * bool)) :
  let w0 := newWorld 0 (Some sample_core) ∅ in
  let w := run (poll_once (response_check_failed 111)) w0 in
  let w' := run (poll_once (response_check_failed 104)) w0 in
  (status (sess w) = LOGIN_CANCELLED /\
   id (sess w) = JNull /\
   totalAttempts (sess w) = 0 /\
   canUpdate (sess w) = true /\
   _mode (sess w) = JStr "new" /\
   mode (sess w) = JStr "wait" /\
   mode (sess w) <> JStr "new" /\
   pending w = [mkPending ["App.endSession"; "App.startSession"]
                  (HOnEndThenStart false)]) /\
  (status (sess w') = LOGIN_FAILED /\
   _mode (sess w') = JStr "new" /\
   mode (sess w') = JStr "wait") /\
  frozen w (run (ticks ts) w).
Proof.
  cbv zeta.
  assert (Hmode :
    mode (sess (run (poll_once (response_check_failed 111))
                  (newWorld 0 (Some sample_core) ∅))) = JStr "wait")
    by (vm_compute; reflexivity).
  split; [vm_compute; repeat split; congruence|].
  split; [vm_compute; repeat split; reflexivity|].
  apply ticks_in_wait. exact Hmode.
Qed.

(** C7: a check answered with an expired session resets the session, clears
    the id and sets the status Uninitialized, but leaves the mode "wait",
    as the tick that sent the check set it: every later [update] returns at
    its guard, no new session is requested, and the session stays where it
    is whatever the ticks. *)
Theorem expired_session_not_restarted (ts : list (Z * bool)) :
  let w0 := newWorld 0 (Some sample_core) ∅ in
  let w := run (poll_once (response_checked true JNull false)) w0 in
  (status (sess w) = SESSION_UNINITIALIZED /\
   id (sess w) = JNull /\
   user (sess w) = JNull /\
   uri_id (sess w) = JNull /\
   saved_id (sess w) = JNull /\
   canUpdate (sess w) = true /\
   mode (sess w) = JStr "wait" /\
   pending w = [] /\
   localStorage w !! sample_key = Some "null") /\
  frozen w (run (ticks ts) w) /\
  pending (run (ticks ts) w) = [].
Proof.
  cbv zeta.
  assert (Hw :
    let w := run (poll_once (response_checked true JNull false))
               (newWorld 0 (Some sample_core) ∅) in
    mode (sess w) = JStr "wait" /\ pending w = [])
    by (vm_compute; split; reflexivity).
  cbv zeta in Hw. destruct Hw as [Hmode Hp].
  split; [vm_compute; repeat split; reflexivity|].
  pose proof (ticks_in_wait ts _ Hmode) as Hfrozen.
  split; [exact Hfrozen|].
  destruct Hfrozen as (_ & _ & _ & _ & _ & _ & -> & _). exact Hp.
Qed.

(* ------------------------------------------------------------------ *)
(** ** What the handlers and the guard do, in general *)

(** X1: an [update] that passes its guards in ServerUnavailable gives up when
    the attempts are spent and otherwise counts one attempt and goes back
    to Uninitialized; the status shown is the one left when the rate limit
    stops the tick there. *)
Theorem update_retries_when_open (w : World) (now : Z) (callback : bool) :
  canUpdate (sess w) = true ->
  js_loose_eq_lit (mode (sess w)) "wait" = false ->
  ngioCore (sess w) <> None ->
  status (sess w) = SERVER_UNAVAILABLE ->
  let w' := final (update now callback w) in
  totalAttempts (sess w') =
    (if maxAttempts (sess w) <=? totalAttempts (sess w)
     then totalAttempts (sess w) else totalAttempts (sess w) + 1) /\
  (now - lastUpdate (sess w) < 5000 ->
   pending w' = pending w /\
   status (sess w') =
     (if maxAttempts (sess w) <=? totalAttempts (sess w)
      then EXCEEDED_MAX_ATTEMPTS else SESSION_UNINITIALIZED)).
Proof.
  open_world w. intros Hcan Hmode Hcore Hstatus. subst.
  wp_exec;
    try solve [ rewrite Hmode in *; simpl in *; discriminate ];
    bool_hyps; try congruence;
    (split; [reflexivity | intros; first [ lia | split; reflexivity ]]).
Qed.

Lemma update_retries_when_open_witness :
  let w := run [OpLogOut false; OpComplete 0 100 response_failure]
             (newWorld 0 (Some sample_core) ∅) in
  totalAttempts (sess (final (update 5000 false w))) = 1.
Proof.
  cbv zeta.
  refine (eq_trans
            (proj1 (update_retries_when_open
                      (run [OpLogOut false; OpComplete 0 100 response_failure]
                         (newWorld 0 (Some sample_core) ∅))
                      5000 false _ _ _ _)) _);
    vm_compute; congruence.
Defined.

(** X2: an [update] that finds the mode "wait" returns at its guard: nothing
    of the lifecycle moves, no call is sent, [lastUpdate] stays, and the
    tick only refreshes the observed status. *)
Theorem update_returns_at_wait_guard (w : World) (now : Z) (callback : bool) :
  mode (sess w) = JStr "wait" ->
  frozen w (final (update now callback w)) /\
  lastUpdate (sess (final (update now callback w))) = lastUpdate (sess w) /\
  queued (final (update now callback w)) = queued w.
Proof.
  intros Hmode. split; [apply update_in_wait; exact Hmode|].
  open_world w. subst.
  wp_exec;
    solve [ split; reflexivity | bool_hyps; simpl in *; discriminate ].
Qed.

Lemma update_returns_at_wait_guard_witness :
  let w := step (newWorld 0 (Some sample_core) ∅) (OpUpdate 0 false) in
  pending (final (update 9000 false w)) = pending w.
Proof.
  cbv zeta.
  assert (Hmode :
    mode (sess (step (newWorld 0 (Some sample_core) ∅) (OpUpdate 0 false))) =
    JStr "wait") by (vm_compute; reflexivity).
  destruct (update_returns_at_wait_guard _ 9000 false Hmode)
    as ((_ & _ & _ & _ & _ & _ & Hpending & _) & _).
  exact Hpending.
Defined.

(** X3: on a check answered with a failure report the handler clears the id,
    cancels the login with LoginCancelled for the error code 111 and
    LoginFailed for any other, resets the attempts, rewinds [lastUpdate],
    sends the end-session batch and sets [canUpdate]; it writes "new" to
    the private [_mode] and leaves the public [mode] as it was. *)
Theorem check_failure_cancels (c : Core) (w : World) (now : Z)
    (response result error code : JsVal) :
  ngioCore (sess w) = Some c ->
  reports_failed_check response = true ->
  js_prop response "result" = Some result ->
  js_prop result "error" = Some error ->
  js_prop error "code" = Some code ->
  let w' := final (_onCheckSession now response w) in
  returns (_onCheckSession now response w) = true /\
  status (sess w') =
    (if js_strict_eq_num code 111 then LOGIN_CANCELLED else LOGIN_FAILED) /\
  id (sess w') = JNull /\
  totalAttempts (sess w') = 0 /\
  _mode (sess w') = JStr "new" /\
  mode (sess w') = mode (sess w) /\
  canUpdate (sess w') = true /\
  lastUpdate (sess w') = now - 30000 /\
  pending w' =
    pending w ++
    [mkPending (queued w ++ ["App.endSession"; "App.startSession"])
       (HOnEndThenStart false)].
Proof.
  open_world w. intros Hcore Hresp Hresult Herror Hcode. subst.
  unfold reports_failed_check in Hresp.
  rewrite Hresult, Herror, Hcode in Hresp.
  open_shape.
  wp_exec; bool_hyps; try congruence.
  rewrite <- app_assoc. repeat split; reflexivity.
Qed.

Lemma check_failure_cancels_witness :
  status (sess (final (_onCheckSession 5250 (response_check_failed 111)
                         (newWorld 0 (Some sample_core) ∅)))) =
  LOGIN_CANCELLED.
Proof.
  exact (proj1 (proj2 (check_failure_cancels sample_core
                         (newWorld 0 (Some sample_core) ∅) 5250
                         (response_check_failed 111)
                         (JObj [("success", JBool false);
                                ("error", JObj [("code", JNum 111)])])
                         (JObj [("code", JNum 111)]) (JNum 111)
                         eq_refl eq_refl eq_refl eq_refl eq_refl))).
Defined.

(** X4: on a check answered with an expired session the handler clears the URI
    id, the remembered id, the user and the flags, stores "null" under the
    storage key, clears the id, sets the status Uninitialized and sets
    [canUpdate]; it sends nothing and leaves the mode as it was. *)
Theorem check_expired_resets (c : Core) (w : World) (now : Z)
    (response : JsVal) :
  ngioCore (sess w) = Some c ->
  reports_expired response = true ->
  let w' := final (_onCheckSession now response w) in
  returns (_onCheckSession now response w) = true /\
  status (sess w') = SESSION_UNINITIALIZED /\
  id (sess w') = JNull /\
  uri_id (sess w') = JNull /\
  saved_id (sess w') = JNull /\
  user (sess w') = JNull /\
  remember (sess w') = JBool false /\
  expired (sess w') = JBool false /\
  localStorage w' !! ("_ngio_" +:+ appID c +:+ "_session_") = Some "null" /\
  canUpdate (sess w') = true /\
  mode (sess w') = mode (sess w) /\
  totalAttempts (sess w') = totalAttempts (sess w) /\
  pending w' = pending w.
Proof.
  open_world w. intros Hcore Hresp. subst.
  unfold reports_expired in Hresp. open_shape.
  wp_exec; bool_hyps; try congruence.
  repeat split; try reflexivity. apply lookup_insert_eq.
Qed.

Lemma check_expired_resets_witness :
  status (sess (final (_onCheckSession 5250
                         (response_checked true JNull false)
                         (newWorld 0 (Some sample_core) ∅)))) =
  SESSION_UNINITIALIZED.
Proof.
  exact (proj1 (proj2 (check_expired_resets sample_core
                         (newWorld 0 (Some sample_core) ∅) 5250
                         (response_checked true JNull false)
                         eq_refl eq_refl))).
Defined.

(** X5: on a check answered with a live session that has no user yet the
    handler sets the mode to "check", so that the next open tick polls
    again, leaves the status, the id and the attempts as they were, and
    sets [canUpdate]. *)
Theorem check_without_user_polls_again (w : World) (now : Z)
    (response : JsVal) :
  reports_no_user response = true ->
  let w' := final (_onCheckSession now response w) in
  returns (_onCheckSession now response w) = true /\
  mode (sess w') = JStr "check" /\
  status (sess w') = status (sess w) /\
  id (sess w') = id (sess w) /\
  totalAttempts (sess w') = totalAttempts (sess w) /\
  canUpdate (sess w') = true /\
  pending w' = pending w /\
  localStorage w' = localStorage w.
Proof.
  open_world w. intros Hresp.
  unfold reports_no_user in Hresp. open_shape.
  wp_exec; bool_hyps; try congruence.
  repeat split; reflexivity.
Qed.

Lemma check_without_user_polls_again_witness :
  mode (sess (final (_onCheckSession 5250
                       (response_checked false JNull false)
                       (newWorld 0 (Some sample_core) ∅)))) = JStr "check".
Proof.
  exact (proj1 (proj2 (check_without_user_polls_again
                         (newWorld 0 (Some sample_core) ∅) 5250
                         (response_checked false JNull false) eq_refl))).
Defined.

(** X6: a fresh session with a core and nothing stored: its first tick takes it
    as a new session and sends the start-session call, leaving the mode
    "wait" and the status WaitingForServer. *)
Theorem first_tick_starts_session (created now : Z) (callback : bool)
    (c : Core) :
  -25000 <= now - created ->
  let w' := final (update now callback (newWorld created (Some c) ∅)) in
  status (sess w') = WAITING_FOR_SERVER /\
  mode (sess w') = JStr "wait" /\
  canUpdate (sess w') = false /\
  lastUpdate (sess w') = now /\
  pending w' = [mkPending ["App.startSession"] HOnStartSession].
Proof.
  intros Hlate. unfold newWorld, newSession. wp_norm.
  wp_exec; bool_hyps; try congruence; try lia;
    try match goal with H : context [∅ !! _] |- _ =>
          rewrite lookup_empty in H; simpl in H end;
    try discriminate;
    repeat split; reflexivity.
Qed.

Lemma first_tick_starts_session_witness :
  status (sess (final (update 0 false (newWorld 0 (Some sample_core) ∅)))) =
  WAITING_FOR_SERVER.
Proof.
  refine (proj1 (first_tick_starts_session 0 0 false sample_core _)).
  vm_compute. discriminate.
Defined.
